(** * SoundClip: the React front end (src/App.tsx)

    A shallow embedding of the [App] component: its state cells, the four
    backend event listeners, the click handlers and the guards the render
    function puts on each control.

    Conventions of the model.
    - A JavaScript string is the list of its UTF-16 code units.
    - A JavaScript number that the component only stores and displays (the
      progress payload) is a rational: no arithmetic is performed on it.
    - A handler is a closure created by one render: it reads the state
      constants of that render (its snapshot) and issues setter calls and
      backend invocations.  Setter calls act on the live state; functional
      setters ([setLogs(prev => ...)]) read the live state, plain reads
      ([url], [showFfmpegPrompt], ...) read the snapshot.
    - [await invoke(...)] suspends the handler: the backend answers with a
      resolved value or a rejection, and listener callbacks may run in
      between.  A second user action is taken once the handler of the first
      has finished. *)

From Stdlib Require Import List String Ascii NArith ZArith QArith Bool Lia.
Import ListNotations.

Set Implicit Arguments.

(** ** Strings *)

Module JsString.

Definition jsstring := list N.

(** An ASCII literal of the source. *)
Definition lit (s : string) : jsstring :=
  map N_of_ascii (list_ascii_of_string s).

Definition eqb (a b : jsstring) : bool :=
  if list_eq_dec N.eq_dec a b then true else false.

(** ECMAScript WhiteSpace and LineTerminator code points, the set
    [String.prototype.trim] removes. *)
Definition is_ws (c : N) : bool :=
  ((c =? 9) || (c =? 10) || (c =? 11) || (c =? 12) || (c =? 13) ||
   (c =? 32) || (c =? 160) || (c =? 5760) ||
   ((8192 <=? c) && (c <=? 8202)) ||
   (c =? 8232) || (c =? 8233) || (c =? 8239) || (c =? 8287) ||
   (c =? 12288) || (c =? 65279))%N.

Fixpoint trimStart (s : jsstring) : jsstring :=
  match s with
  | [] => []
  | c :: t => if is_ws c then trimStart t else s
  end.

Definition trimEnd (s : jsstring) : jsstring := rev (trimStart (rev s)).

Definition trim (s : jsstring) : jsstring := trimEnd (trimStart s).

(** Truthiness of a [string]: only the empty string is falsy. *)
Definition truthy (s : jsstring) : bool :=
  match s with [] => false | _ :: _ => true end.

(** Truthiness of a [string | null]. *)
Definition truthy_opt (o : option jsstring) : bool :=
  match o with None => false | Some s => truthy s end.

(** [`${o}`] for a [string | null]. *)
Definition show_opt (o : option jsstring) : jsstring :=
  match o with None => lit "null" | Some s => s end.

(** [o ?? d] *)
Definition nullish {A} (o : option A) (d : A) : A :=
  match o with None => d | Some a => a end.

End JsString.
Import JsString.

Arguments lit : simpl never.

(** ** Interfaces of the source *)

Record DepsStatus := mkDeps { ytdlp : bool; ffmpeg : bool }.

Record Settings := mkSettings {
  save_path : jsstring;
  audio_format : jsstring;
  playlist_mode : bool
}.

(** [Partial<Settings>] *)
Record PartialSettings := mkPartial {
  save_path_opt : option jsstring;
  audio_format_opt : option jsstring;
  playlist_mode_opt : option bool
}.

Definition no_overrides : PartialSettings := mkPartial None None None.

Record VersionInfo := mkVersionInfo {
  local : option jsstring;
  latest : option jsstring;
  download_url : option jsstring;
  update_available : bool
}.

Record FfmpegInfo := mkFfmpegInfo {
  installed : bool;
  version : option jsstring
}.

Definition FORMATS : list jsstring :=
  map lit ["best"; "mp3"; "m4a"; "opus"; "flac"; "wav"; "aac"; "alac";
           "vorbis"]%string.

(** ** Component state: one field per [useState] cell *)

Record State := mkState {
  url : jsstring;
  format : jsstring;
  playlist : bool;
  savePath : jsstring;
  logs : list jsstring;
  progress : Q;
  status : jsstring;
  downloading : bool;
  deps : DepsStatus;
  updating : bool;
  showFfmpegPrompt : bool
}.

Definition initial : State :=
  mkState [] (lit "best") false [] [] 0 (lit "Ready") false
          (mkDeps true true) false false.

Definition setUrl (v : jsstring) (s : State) : State :=
  mkState v (format s) (playlist s) (savePath s) (logs s) (progress s)
          (status s) (downloading s) (deps s) (updating s)
          (showFfmpegPrompt s).

Definition setFormat (v : jsstring) (s : State) : State :=
  mkState (url s) v (playlist s) (savePath s) (logs s) (progress s)
          (status s) (downloading s) (deps s) (updating s)
          (showFfmpegPrompt s).

Definition setPlaylist (v : bool) (s : State) : State :=
  mkState (url s) (format s) v (savePath s) (logs s) (progress s)
          (status s) (downloading s) (deps s) (updating s)
          (showFfmpegPrompt s).

Definition setSavePath (v : jsstring) (s : State) : State :=
  mkState (url s) (format s) (playlist s) v (logs s) (progress s)
          (status s) (downloading s) (deps s) (updating s)
          (showFfmpegPrompt s).

(** [setLogs] takes an updater; [setLogs([])] is [setLogs (fun _ => [])]. *)
Definition setLogs (f : list jsstring -> list jsstring) (s : State) : State :=
  mkState (url s) (format s) (playlist s) (savePath s) (f (logs s))
          (progress s) (status s) (downloading s) (deps s) (updating s)
          (showFfmpegPrompt s).

Definition setProgress (v : Q) (s : State) : State :=
  mkState (url s) (format s) (playlist s) (savePath s) (logs s) v
          (status s) (downloading s) (deps s) (updating s)
          (showFfmpegPrompt s).

Definition setStatus (v : jsstring) (s : State) : State :=
  mkState (url s) (format s) (playlist s) (savePath s) (logs s) (progress s)
          v (downloading s) (deps s) (updating s) (showFfmpegPrompt s).

Definition setDownloading (v : bool) (s : State) : State :=
  mkState (url s) (format s) (playlist s) (savePath s) (logs s) (progress s)
          (status s) v (deps s) (updating s) (showFfmpegPrompt s).

Definition setDeps (v : DepsStatus) (s : State) : State :=
  mkState (url s) (format s) (playlist s) (savePath s) (logs s) (progress s)
          (status s) (downloading s) v (updating s) (showFfmpegPrompt s).

Definition setUpdating (v : bool) (s : State) : State :=
  mkState (url s) (format s) (playlist s) (savePath s) (logs s) (progress s)
          (status s) (downloading s) (deps s) v (showFfmpegPrompt s).

Definition setShowFfmpegPrompt (v : bool) (s : State) : State :=
  mkState (url s) (format s) (playlist s) (savePath s) (logs s) (progress s)
          (status s) (downloading s) (deps s) (updating s) v.

(** ** Backend events and their listeners *)

Inductive event :=
| download_log (payload : jsstring)
| download_progress (payload : Q)
| download_complete (payload : jsstring)
| update_log (payload : jsstring).

Definition on_event (e : event) (s : State) : State :=
  match e with
  | download_log payload => setLogs (fun prev => prev ++ [payload]) s
  | download_progress payload => setProgress payload s
  | download_complete payload =>
      let s := setDownloading false s in
      if eqb payload (lit "success")
      then setProgress 100 (setStatus (lit "Download complete") s)
      else setStatus (lit "Download failed (" ++ payload ++ lit ")") s
  | update_log payload => setLogs (fun prev => prev ++ [payload]) s
  end.

(** Events are handled one at a time, in arrival order. *)
Definition on_events (evs : list event) (s : State) : State :=
  fold_left (fun st e => on_event e st) evs s.

(** ** Backend commands *)

Inductive command :=
| check_dependencies
| get_settings
| save_settings (settings : Settings)
| start_download (url audioFormat : jsstring) (playlist : bool)
                 (savePath : jsstring)
| cancel_download
| check_ytdlp_update
| update_ytdlp (downloadUrl : jsstring)
| check_ffmpeg
| install_ffmpeg.

(** The type [invoke<T>] resolves with. *)
Definition reply (c : command) : Type :=
  match c with
  | check_dependencies => DepsStatus
  | get_settings => Settings
  | check_ytdlp_update => VersionInfo
  | check_ffmpeg => FfmpegInfo
  | _ => unit
  end.

(** A settled promise; a rejection carries the text [`${e}`] renders. *)
Inductive result (R : Type) :=
| Resolved (v : R)
| Rejected (e : jsstring).
Arguments Rejected {R} e.

(** ** Handlers as programs *)

Inductive prog (A : Type) : Type :=
| Ret (a : A)
| Throw (e : jsstring)
| Do (f : State -> State) (k : prog A)
| Fire (c : command) (k : prog A)
| Await (c : command) (k : result (reply c) -> prog A).
Arguments Throw {A} e.

Fixpoint bind {A B} (p : prog A) (f : A -> prog B) : prog B :=
  match p with
  | Ret a => f a
  | Throw e => Throw e
  | Do g k => Do g (bind k f)
  | Fire c k => Fire c (bind k f)
  | Await c k => Await c (fun r => bind (k r) f)
  end.

(** [try { p } catch (e) { h e }] *)
Fixpoint try_catch {A} (p : prog A) (h : jsstring -> prog A) : prog A :=
  match p with
  | Ret a => Ret a
  | Throw e => h e
  | Do g k => Do g (try_catch k h)
  | Fire c k => Fire c (try_catch k h)
  | Await c k => Await c (fun r => try_catch (k r) h)
  end.

(** [try { p } finally { q }]: [q] runs on both exits and the exit of [p]
    is kept. *)
Fixpoint try_finally {A} (p : prog A) (q : prog unit) : prog A :=
  match p with
  | Ret a => bind q (fun _ => Ret a)
  | Throw e => bind q (fun _ => Throw e)
  | Do g k => Do g (try_finally k q)
  | Fire c k => Fire c (try_finally k q)
  | Await c k => Await c (fun r => try_finally (k r) q)
  end.

Declare Scope prog_scope.
Delimit Scope prog_scope with prog.
Bind Scope prog_scope with prog.

Notation "x <- p ;; q" := (bind p (fun x => q))
  (at level 61, p at next level, right associativity) : prog_scope.
Notation "p ;; q" := (bind p (fun _ => q))
  (at level 61, right associativity) : prog_scope.

(** A setter call. *)
Definition set (f : State -> State) : prog unit := Do f (Ret tt).

(** [await invoke(c)] *)
Definition invoke (c : command) : prog (reply c) :=
  Await c (fun r => match r with
                    | Resolved v => Ret v
                    | Rejected e => Throw e
                    end).

(** [invoke(c)] with the promise dropped: neither awaited nor caught. *)
Definition invoke_detached (c : command) : prog unit := Fire c (Ret tt).

Definition when (b : bool) (p : prog unit) : prog unit :=
  if b then p else Ret tt.

(** ** The handlers of [App]

    Each takes the snapshot [snap] of the render that created it. *)

Section Handlers.

Variable snap : State.

Local Open Scope prog_scope.

Definition refreshDeps : prog unit :=
  d <- invoke check_dependencies ;; set (setDeps d).

(** The first mount effect: [invoke("get_settings").then(...)].  Nothing
    catches a rejection of this promise. *)
Definition loadSettings : prog unit :=
  s <- invoke get_settings ;;
  set (setSavePath (save_path s)) ;;
  set (setFormat (audio_format s)) ;;
  set (setPlaylist (playlist_mode s)).

Definition saveCurrentSettings (overrides : PartialSettings) : prog unit :=
  let s := mkSettings
             (nullish (save_path_opt overrides) (savePath snap))
             (nullish (audio_format_opt overrides) (format snap))
             (nullish (playlist_mode_opt overrides) (playlist snap)) in
  invoke_detached (save_settings s).

(** [selected] is what the folder dialog resolved with. *)
Definition pickFolder (selected : option jsstring) : prog unit :=
  match selected with
  | Some p =>
      when (truthy p)
           (set (setSavePath p) ;;
            saveCurrentSettings (mkPartial (Some p) None None))
  | None => Ret tt
  end.

Definition handleDownload : prog unit :=
  if negb (truthy (trim (url snap))) then
    set (setStatus (lit "Enter a URL first"))
  else
    set (setLogs (fun _ => [])) ;;
    set (setProgress 0) ;;
    set (setDownloading true) ;;
    set (setStatus (lit "Downloading...")) ;;
    saveCurrentSettings no_overrides ;;
    try_catch
      (invoke (start_download (trim (url snap)) (format snap)
                              (playlist snap) (savePath snap)))
      (fun e =>
         set (setStatus (lit "Error: " ++ e)) ;;
         set (setDownloading false)).

Definition handleCancel : prog unit :=
  try_catch
    (invoke cancel_download ;;
     set (setStatus (lit "Cancelled")) ;;
     set (setDownloading false))
    (fun e => set (setStatus (lit "Cancel error: " ++ e))).

(** The [if (ytInfo.download_url) await invoke("update_ytdlp", ...)] of
    both yt-dlp branches. *)
Definition update_if_url (ytInfo : VersionInfo) : prog unit :=
  match download_url ytInfo with
  | Some u => if truthy u then invoke (update_ytdlp u) else Ret tt
  | None => Ret tt
  end.

Definition handleCheckUpdate : prog unit :=
  set (setUpdating true) ;;
  set (setLogs (fun _ => [])) ;;
  set (setStatus (lit "Checking for updates...")) ;;
  try_finally
    (try_catch
       ((* 1. Check yt-dlp *)
        ytInfo <- invoke check_ytdlp_update ;;
        (if negb (truthy_opt (local ytInfo)) then
           set (setStatus (lit "yt-dlp not installed " ++ [8212%N]
                             ++ lit " downloading...")) ;;
           update_if_url ytInfo
         else if update_available ytInfo then
           set (setStatus (lit "Updating yt-dlp: "
                             ++ show_opt (local ytInfo) ++ lit " -> "
                             ++ show_opt (latest ytInfo) ++ lit "...")) ;;
           update_if_url ytInfo
         else
           set (setLogs (fun prev =>
                  prev ++ [lit "yt-dlp " ++ show_opt (local ytInfo)
                             ++ lit " is up to date"]))) ;;
        (* 2. Check ffmpeg *)
        ffInfo <- invoke check_ffmpeg ;;
        (if negb (installed ffInfo) then
           set (setShowFfmpegPrompt true) ;;
           set (setStatus (lit "ffmpeg not found. Install it?"))
         else
           set (setLogs (fun prev =>
                  prev ++ [lit "ffmpeg "
                             ++ nullish (version ffInfo) (lit "(found)")
                             ++ lit " is installed"])) ;;
           set (setStatus (lit "Everything is up to date"))) ;;
        refreshDeps)
       (fun e => set (setStatus (lit "Update check failed: " ++ e))))
    (when (negb (showFfmpegPrompt snap)) (set (setUpdating false))).

Definition handleInstallFfmpeg : prog unit :=
  set (setShowFfmpegPrompt false) ;;
  set (setStatus (lit "Installing ffmpeg...")) ;;
  try_finally
    (try_catch
       (invoke install_ffmpeg ;;
        set (setStatus (lit "ffmpeg installed successfully")) ;;
        refreshDeps)
       (fun e => set (setStatus (lit "ffmpeg install failed: " ++ e))))
    (set (setUpdating false)).

Definition handleDeclineFfmpeg : prog unit :=
  set (setShowFfmpegPrompt false) ;;
  set (setUpdating false) ;;
  set (setStatus (lit "ffmpeg installation skipped")).

End Handlers.

(** ** Running a handler against a backend *)

(** What the component learns about an invocation. *)
Inductive fate :=
| dropped
| resolved
| rejected (e : jsstring).

Definition fate_of_result {R} (r : result R) : fate :=
  match r with
  | Resolved _ => resolved
  | Rejected e => rejected e
  end.

(** One [invoke]: the state in which it was issued (all setter calls made
    so far applied), the command, and how its promise settled. *)
Record call := Call {
  issued_in : State;
  cmd : command;
  fate_of : fate
}.

(** The backend answers an awaited command, given the commands issued so
    far, with the events it emits while the handler is suspended and the
    settlement of the promise. *)
Definition backend : Type :=
  list command -> forall c : command, list event * result (reply c).

Inductive exit (A : Type) :=
| Returned (a : A)
| Uncaught (e : jsstring).
Arguments Uncaught {A} e.

Fixpoint run {A} (p : prog A) (be : backend) (tr : list call) (st : State)
  : list call * State * exit A :=
  match p with
  | Ret a => (tr, st, Returned a)
  | Throw e => (tr, st, Uncaught e)
  | Do f k => run k be tr (f st)
  | Fire c k => run k be (tr ++ [Call st c dropped]) st
  | Await c k =>
      let (evs, r) := be (map cmd tr) c in
      run (k r) be (tr ++ [Call st c (fate_of_result r)]) (on_events evs st)
  end.

(** ** The rendered controls *)

Inductive control :=
| UrlInput (value : jsstring)
| FormatSelect (value : jsstring)
| PlaylistCheckbox (checked : bool)
| BrowseButton (selected : option jsstring)
| DownloadButton
| CancelButton
| CheckUpdateButton
| InstallFfmpegButton
| SkipButton.

(** The control is rendered and not disabled. *)
Definition available (s : State) (c : control) : bool :=
  match c with
  | UrlInput _ | FormatSelect _ | PlaylistCheckbox _ | BrowseButton _ =>
      negb (downloading s)
  | DownloadButton => negb (downloading s) && negb (negb (ytdlp (deps s)))
  | CancelButton => downloading s
  | CheckUpdateButton => negb (downloading s || updating s)
  | InstallFfmpegButton | SkipButton => showFfmpegPrompt s
  end.

(** The callback bound to the control by the render with state [snap]. *)
Definition callback (c : control) (snap : State) : prog unit :=
  match c with
  | UrlInput value => set (setUrl value)
  | FormatSelect value =>
      bind (set (setFormat value))
           (fun _ => saveCurrentSettings snap
                       (mkPartial None (Some value) None))
  | PlaylistCheckbox checked =>
      bind (set (setPlaylist checked))
           (fun _ => saveCurrentSettings snap
                       (mkPartial None None (Some checked)))
  | BrowseButton selected => pickFolder snap selected
  | DownloadButton => handleDownload snap
  | CancelButton => handleCancel
  | CheckUpdateButton => handleCheckUpdate snap
  | InstallFfmpegButton => handleInstallFfmpeg
  | SkipButton => handleDeclineFfmpeg
  end.

(** A user action on the interface in state [st]: the callback of the
    latest render runs, if the control can be operated at all. *)
Definition click (be : backend) (c : control) (tr : list call) (st : State)
  : list call * State :=
  if available st c then fst (run (callback c st) be tr st) else (tr, st).

(** The commands issued by a run, in order. *)
Definition issued (tr : list call) : list command := map cmd tr.

(** A backend with a fixed answer per command and no event in between. *)
Definition quiet (yt : result VersionInfo) (ff : result FfmpegInfo)
           (dp : result DepsStatus) (other : option jsstring) : backend :=
  fun _ c =>
    ([], match c return result (reply c) with
         | check_dependencies => dp
         | get_settings =>
             match other with
             | None => Resolved (mkSettings [] (lit "best") false)
             | Some e => Rejected e
             end
         | check_ytdlp_update => yt
         | check_ffmpeg => ff
         | _ => match other with
                | None => Resolved tt
                | Some e => Rejected e
                end
         end).

(** ** Views of a job used by the statements *)

(** The lines carried by the log events of a stream, in stream order. *)
Fixpoint log_lines (evs : list event) : list jsstring :=
  match evs with
  | [] => []
  | download_log l :: t => l :: log_lines t
  | update_log l :: t => l :: log_lines t
  | _ :: t => log_lines t
  end.


Definition is_completion (e : event) : bool :=
  match e with download_complete _ => true | _ => false end.

(** The value of the progress cell after each event of a stream. *)
Fixpoint observed_progress (evs : list event) (st : State) : list Q :=
  match evs with
  | [] => []
  | e :: t => progress (on_event e st) :: observed_progress t (on_event e st)
  end.

Fixpoint nondecreasing (l : list Q) : Prop :=
  match l with
  | x :: (y :: _) as t => x <= y /\ nondecreasing t
  | _ => True
  end.

(** The progress values the interface shows over one job: the value the
    accepted request resets the cell to, then the value after each event up
    to and including the completion. *)
Definition job_progress (st : State) (body : list event) (outcome : jsstring)
  : list Q :=
  progress st :: observed_progress (body ++ [download_complete outcome]) st.

(** C3 as the specification words it: every job's observed progress is
    non-decreasing and ends at 100 on success. *)
Definition progress_monotone_claim : Prop :=
  forall (st : State) (body : list event) (outcome : jsstring),
    progress st = 0 ->
    Forall (fun e => is_completion e = false) body ->
    nondecreasing (job_progress st body outcome) /\
    (outcome = lit "success" -> last (job_progress st body outcome) 0 = 100).

(** The status prefix of the catch clause of each handler that awaits. *)
Definition catch_label (c : control) : jsstring :=
  match c with
  | DownloadButton => lit "Error: "
  | CancelButton => lit "Cancel error: "
  | CheckUpdateButton => lit "Update check failed: "
  | InstallFfmpegButton => lit "ffmpeg install failed: "
  | _ => []
  end.

(** The controls whose callback awaits a backend invocation inside a
    [try]. *)
Definition awaits_backend (c : control) : bool :=
  match c with
  | DownloadButton | CancelButton | CheckUpdateButton
  | InstallFfmpegButton => true
  | _ => false
  end.

(** The answer of a backend in which ffmpeg is missing and yt-dlp is
    current. *)
Definition ffmpeg_missing : backend :=
  quiet (Resolved (mkVersionInfo (Some (lit "2024.06.10"))
                                 (Some (lit "2024.06.10"))
                                 (Some (lit "https://example.org/yt-dlp.exe"))
                                 false))
        (Resolved (mkFfmpegInfo false None))
        (Resolved (mkDeps true false))
        None.

(** [u] is [s] with its surrounding white space removed: [s] is [u]
    between two runs of white space, and [u] neither starts nor ends with
    white space. *)
Definition stripped (s u : jsstring) : Prop :=
  exists l r,
    s = l ++ u ++ r /\
    forallb is_ws l = true /\ forallb is_ws r = true /\
    (forall c, hd_error u = Some c -> is_ws c = false) /\
    (forall c, hd_error (rev u) = Some c -> is_ws c = false).

(** A backend whose [cancel_download] emits the completion event before
    its promise resolves. *)
Definition cancel_emits_first : backend :=
  fun _ c =>
    (match c with
     | cancel_download => [download_complete (lit "cancelled")]
     | _ => []
     end,
     snd (ffmpeg_missing [] c)).

(** A backend that rejects every command it can reject with ["boom"]. *)
Definition failing : backend :=
  quiet (Rejected (lit "boom")) (Rejected (lit "boom"))
        (Rejected (lit "boom")) (Some (lit "boom")).

(** What the release check answers when yt-dlp was never installed. *)
Definition never_installed : VersionInfo :=
  mkVersionInfo None (Some (lit "2024.06.10"))
                (Some (lit "https://example.org/yt-dlp.exe")) false.

(** A backend reporting that yt-dlp was never installed. *)
Definition ytdlp_absent : backend :=
  quiet (Resolved never_installed)
        (Resolved (mkFfmpegInfo true (Some (lit "7.0"))))
        (Resolved (mkDeps true true))
        None.

(** ** Sessions: user actions and backend events, one after the other *)

Inductive input :=
| Click (c : control)
| Emit (e : event).

Definition step (be : backend) (sys : list call * State) (i : input)
  : list call * State :=
  match i with
  | Click c => click be c (fst sys) (snd sys)
  | Emit e => (fst sys, on_event e (snd sys))
  end.

Definition session (be : backend) (inputs : list input)
           (sys : list call * State) : list call * State :=
  fold_left (step be) inputs sys.

(** The backend answers every [check_ffmpeg] with "not installed". *)
Definition reports_ffmpeg_missing (be : backend) : Prop :=
  forall h, exists evs info,
      be h check_ffmpeg = (evs, Resolved info) /\ installed info = false.

(** A request as typed by a user, with stray blanks around the address. *)
Definition sample_request : State :=
  setUrl (lit " https://youtube.com/watch?v=abc123 ") initial.

(** ** Views used by the further properties *)

(** The settings record the interface displays: the three cells that
    [saveCurrentSettings] reads. *)
Definition displayed_settings (st : State) : Settings :=
  mkSettings (savePath st) (format st) (playlist st).

(** The commands of a download request. *)
Definition saves_or_starts (c : command) : bool :=
  match c with
  | save_settings _ | start_download _ _ _ _ => true
  | _ => false
  end.

(** The controls whose callback calls [saveCurrentSettings]. *)
Definition saves_settings (c : control) : bool :=
  match c with
  | FormatSelect _ | PlaylistCheckbox _ | BrowseButton _
  | DownloadButton => true
  | _ => false
  end.

(** A backend for which yt-dlp is absent and no release URL is known. *)
Definition no_release : backend :=
  quiet (Resolved (mkVersionInfo None None None false))
        (Resolved (mkFfmpegInfo true None))
        (Resolved (mkDeps false true))
        None.

(** What the two checks answer when both tools are current. *)
Definition current_ytdlp : VersionInfo :=
  mkVersionInfo (Some (lit "2024.06.10")) (Some (lit "2024.06.10"))
                (Some (lit "https://example.org/yt-dlp.exe")) false.

Definition current_ffmpeg : FfmpegInfo := mkFfmpegInfo true None.

Definition all_current : backend :=
  quiet (Resolved current_ytdlp) (Resolved current_ffmpeg)
        (Resolved (mkDeps true true)) None.

(** A default for positions of a trace. *)
Definition no_call : call := Call initial get_settings dropped.

(** The interface while the sample request is being downloaded. *)
Definition sample_job : State := setDownloading true sample_request.

(** * Properties *)

Unset Implicit Arguments.

(** ** Listeners *)

Section ListenerFrame.

(** The listeners write only the log, progress, status and downloading
    cells. *)
Lemma on_event_frame (e : event) (s : State) :
  url (on_event e s) = url s /\
  format (on_event e s) = format s /\
  playlist (on_event e s) = playlist s /\
  savePath (on_event e s) = savePath s /\
  deps (on_event e s) = deps s /\
  updating (on_event e s) = updating s /\
  showFfmpegPrompt (on_event e s) = showFfmpegPrompt s.
Proof.
  destruct e as [l | q | o | l]; unfold on_event;
    [ | | destruct (eqb o (lit "success")) | ]; repeat split; reflexivity.
Qed.

Lemma on_events_frame (evs : list event) (s : State) :
  url (on_events evs s) = url s /\
  format (on_events evs s) = format s /\
  playlist (on_events evs s) = playlist s /\
  savePath (on_events evs s) = savePath s /\
  deps (on_events evs s) = deps s /\
  updating (on_events evs s) = updating s /\
  showFfmpegPrompt (on_events evs s) = showFfmpegPrompt s.
Proof.
  revert s; induction evs as [| e evs IH]; intros s; cbn.
  - repeat split; reflexivity.
  - specialize (IH (on_event e s)).
    pose proof (on_event_frame e s) as F.
    unfold on_events in IH.
    repeat match goal with H : _ /\ _ |- _ => destruct H end.
    repeat split; congruence.
Qed.

Lemma on_events_updating evs s :
  updating (on_events evs s) = updating s.
Proof. apply on_events_frame. Qed.

Lemma on_events_prompt evs s :
  showFfmpegPrompt (on_events evs s) = showFfmpegPrompt s.
Proof. apply on_events_frame. Qed.


End ListenerFrame.

Lemma logs_on_event (e : event) (s : State) :
  logs (on_event e s) = logs s ++ log_lines [e].
Proof.
  destruct e as [l | q | o | l]; unfold on_event;
    [ | | destruct (eqb o (lit "success")) | ]; cbn; now rewrite ?app_nil_r.
Qed.

Lemma log_lines_cons (e : event) (evs : list event) :
  log_lines (e :: evs) = log_lines [e] ++ log_lines evs.
Proof. destruct e; reflexivity. Qed.

(** C7. Whatever events arrive, and in whatever mix, the log list after
    handling them is the log list before followed by the line of every
    download-log and update-log event, once each and in arrival order;
    progress and completion events in between neither drop nor move a
    line. *)
Theorem log_events_appended_in_order (evs : list event) (s : State) :
  logs (on_events evs s) = logs s ++ log_lines evs.
Proof.
  revert s; induction evs as [| e evs IH]; intros s.
  - cbn. now rewrite app_nil_r.
  - change (on_events (e :: evs) s) with (on_events evs (on_event e s)).
    rewrite IH, logs_on_event, (log_lines_cons e evs), app_assoc.
    reflexivity.
Qed.

(** C1 (what the code does). A completion event whose payload is
    ["cancelled"] takes the failure branch of the listener: for every state
    the status becomes ["Download failed (cancelled)"]. *)
Theorem cancelled_completion_shown_as_failure (s : State) :
  status (on_event (download_complete (lit "cancelled")) s)
  = lit "Download failed (cancelled)".
Proof. reflexivity. Qed.

(** The two arrival orders of the completion event around a Cancel click:
    emitted while [cancel_download] is pending, the failure text is shown
    and then overwritten; emitted after the promise resolved, the failure
    text is what stays. *)
Example cancel_then_completion_event :
  let st := setDownloading true initial in
  let '(tr, st1) := click ffmpeg_missing CancelButton [] st in
  status st1 = lit "Cancelled" /\
  status (on_event (download_complete (lit "cancelled")) st1)
  = lit "Download failed (cancelled)".
Proof. split; reflexivity. Qed.

Example completion_event_during_cancel :
  let st := setDownloading true initial in
  let '(tr, st1) := click cancel_emits_first CancelButton [] st in
  map (fun c => status (issued_in c)) tr = [lit "Ready"] /\
  status st1 = lit "Cancelled".
Proof. split; reflexivity. Qed.

(** ** [String.prototype.trim] *)

Section Trim.

Lemma trimStart_split (s : jsstring) :
  exists l, s = l ++ trimStart s /\ forallb is_ws l = true.
Proof.
  induction s as [| c t [l [E W]]].
  - exists []; split; reflexivity.
  - cbn [trimStart]. destruct (is_ws c) eqn:C.
    + exists (c :: l); split.
      * cbn. now rewrite <- E.
      * cbn. now rewrite C, W.
    + exists []; split; reflexivity.
Qed.

Lemma trimStart_head (s : jsstring) (c : N) :
  hd_error (trimStart s) = Some c -> is_ws c = false.
Proof.
  induction s as [| d t IH]; cbn [trimStart]; [discriminate |].
  destruct (is_ws d) eqn:D; [exact IH |].
  cbn. intros [= <-]. exact D.
Qed.

Lemma trimStart_nil (s : jsstring) :
  trimStart s = [] <-> forallb is_ws s = true.
Proof.
  induction s as [| d t IH]; cbn [trimStart forallb].
  - split; reflexivity.
  - destruct (is_ws d); cbn [andb]; [exact IH |].
    split; discriminate.
Qed.

Lemma forallb_rev (f : N -> bool) (l : list N) :
  forallb f (rev l) = forallb f l.
Proof.
  induction l as [| a l IH]; [reflexivity |].
  cbn [rev forallb]. rewrite forallb_app, IH. cbn.
  now rewrite andb_true_r, andb_comm.
Qed.

Lemma trimEnd_split (t : jsstring) :
  exists r, t = trimEnd t ++ r /\ forallb is_ws r = true.
Proof.
  destruct (trimStart_split (rev t)) as [l [E W]].
  exists (rev l); split.
  - unfold trimEnd. rewrite <- rev_app_distr, <- E. now rewrite rev_involutive.
  - now rewrite forallb_rev.
Qed.

Lemma trim_stripped (s : jsstring) : stripped s (trim s).
Proof.
  destruct (trimStart_split s) as [l [El Wl]].
  destruct (trimEnd_split (trimStart s)) as [r [Er Wr]].
  exists l, r. repeat split; trivial.
  - unfold trim. now rewrite <- Er.
  - intros c H. apply (trimStart_head s).
    rewrite Er. unfold trim in H.
    destruct (trimEnd (trimStart s)); [discriminate | exact H].
  - intros c H. unfold trim, trimEnd in H. rewrite rev_involutive in H.
    now apply trimStart_head in H.
Qed.

Lemma trim_blank (s : jsstring) :
  truthy (trim s) = negb (forallb is_ws s).
Proof.
  destruct (forallb is_ws s) eqn:W.
  - apply trimStart_nil in W. unfold trim. now rewrite W.
  - cbn [negb]. unfold trim, trimEnd.
    destruct (trimStart (rev (trimStart s))) as [| c t] eqn:E.
    + apply trimStart_nil in E. rewrite forallb_rev in E.
      destruct (trimStart s) as [| d u] eqn:S.
      * apply trimStart_nil in S. congruence.
      * assert (H : is_ws d = false)
          by (apply (trimStart_head s); now rewrite S).
        cbn in E. now rewrite H in E.
    + cbn [rev]. now destruct (rev t).
Qed.

End Trim.

(** ** Runs *)

(** A run only adds calls at the end of the trace. *)
Lemma run_extends {A} (p : prog A) (be : backend) (tr : list call)
      (st : State) :
  exists ext, fst (fst (run p be tr st)) = tr ++ ext.
Proof.
  revert tr st.
  induction p as [a | e | f k IH | c k IH | c k IH]; intros tr st;
    cbn [run].
  - exists []. now rewrite app_nil_r.
  - exists []. now rewrite app_nil_r.
  - apply IH.
  - destruct (IH (tr ++ [Call st c dropped]) st) as [ext E].
    exists (Call st c dropped :: ext). rewrite E, <- app_assoc. reflexivity.
  - destruct (be (map cmd tr) c) as [evs r].
    destruct (IH r (tr ++ [Call st c (fate_of_result r)]) (on_events evs st))
      as [ext E].
    exists (Call st c (fate_of_result r) :: ext).
    rewrite E, <- app_assoc. reflexivity.
Qed.

(** ** Download requests *)

(** C5. A request whose URL is empty ends in the guard: the run issues no
    invocation at all (so no [start_download]), the only state change is
    the status ["Enter a URL first"], and in particular the downloading flag
    is not raised. *)
Theorem empty_url_rejected_before_invocation
        (be : backend) (tr : list call) (st : State) :
  url st = [] ->
  run (handleDownload st) be tr st
  = (tr, setStatus (lit "Enter a URL first") st, Returned tt).
Proof.
  intros E. unfold handleDownload. rewrite E. reflexivity.
Qed.

Lemma empty_url_rejected_witness :
  url initial = [] /\
  run (handleDownload initial) failing [] initial
  = ([], setStatus (lit "Enter a URL first") initial, Returned tt).
Proof.
  split; [reflexivity |].
  apply (empty_url_rejected_before_invocation failing [] initial).
  reflexivity.
Defined.

(** The calls of an accepted request, with the state both are issued in. *)
Lemma handleDownload_accepted (be : backend) (tr : list call) (st : State) :
  forallb is_ws (url st) = false ->
  exists f,
    let st1 := setStatus (lit "Downloading...")
                 (setDownloading true
                    (setProgress 0 (setLogs (fun _ => []) st))) in
    fst (fst (run (handleDownload st) be tr st))
    = tr ++ [Call st1 (save_settings
                         (mkSettings (savePath st) (format st) (playlist st)))
                  dropped;
             Call st1 (start_download (trim (url st)) (format st)
                                      (playlist st) (savePath st)) f].
Proof.
  intros W. unfold handleDownload. rewrite trim_blank, W.
  cbn -[trim].
  match goal with |- context [be ?h ?c] => destruct (be h c) as [evs [[] | e]] end;
    cbn -[trim]; eexists; rewrite <- app_assoc; reflexivity.
Qed.

(** C8. The URL of the user is split as white space, [trim (url st)],
    white space, the middle part having no white space at either end.  If
    the input is all white space (the empty input included) the request
    ends in the guard with no invocation; otherwise the run issues exactly
    [save_settings] and then [start_download] whose url argument is the
    trimmed input. *)
Theorem start_download_receives_trimmed_url
        (be : backend) (tr : list call) (st : State) :
  stripped (url st) (trim (url st)) /\
  if forallb is_ws (url st)
  then run (handleDownload st) be tr st
       = (tr, setStatus (lit "Enter a URL first") st, Returned tt)
  else exists st1 f,
      fst (fst (run (handleDownload st) be tr st))
      = tr ++ [Call st1 (save_settings
                           (mkSettings (savePath st) (format st)
                                       (playlist st))) dropped;
               Call st1 (start_download (trim (url st)) (format st)
                                        (playlist st) (savePath st)) f].
Proof.
  split; [apply trim_stripped |].
  destruct (forallb is_ws (url st)) eqn:W.
  - unfold handleDownload. rewrite trim_blank, W. reflexivity.
  - destruct (handleDownload_accepted be tr st W) as [f E].
    eexists; exists f; exact E.
Qed.

(** C9. An accepted request (its trimmed URL is not empty) issues, after
    the calls already made, [save_settings] with the save path, audio
    format and playlist mode of the interface and then [start_download];
    both are issued in a state whose log list is empty and whose progress
    is 0. *)
Theorem accepted_download_resets_view_and_saves_settings
        (be : backend) (tr : list call) (st : State) :
  trim (url st) <> [] ->
  exists st1 f,
    fst (fst (run (handleDownload st) be tr st))
    = tr ++ [Call st1 (save_settings
                         (mkSettings (savePath st) (format st) (playlist st)))
                  dropped;
             Call st1 (start_download (trim (url st)) (format st)
                                      (playlist st) (savePath st)) f]
    /\ logs st1 = [] /\ progress st1 = 0 /\ downloading st1 = true.
Proof.
  intros NE.
  assert (W : forallb is_ws (url st) = false).
  { pose proof (trim_blank (url st)) as T.
    destruct (trim (url st)); [congruence |].
    cbn in T. now destruct (forallb is_ws (url st)). }
  destruct (handleDownload_accepted be tr st W) as [f E].
  eexists; exists f; split; [exact E |].
  repeat split; reflexivity.
Qed.

Lemma accepted_download_witness :
  trim (url sample_request) <> [] /\
  exists st1 f,
    fst (fst (run (handleDownload sample_request) ffmpeg_missing []
                  sample_request))
    = [] ++ [Call st1 (save_settings
                         (mkSettings (savePath sample_request)
                                     (format sample_request)
                                     (playlist sample_request)))
                  dropped;
             Call st1 (start_download (trim (url sample_request))
                                      (format sample_request)
                                      (playlist sample_request)
                                      (savePath sample_request)) f]
    /\ logs st1 = [] /\ progress st1 = 0 /\ downloading st1 = true.
Proof.
  split; [vm_compute; discriminate |].
  apply (accepted_download_resets_view_and_saves_settings
           ffmpeg_missing [] sample_request).
  vm_compute; discriminate.
Defined.

(** ** Progress over one job *)

Section Progress.








End Progress.


(** Hence the universally quantified statement is false. *)
Lemma progress_monotone_claim_fails : ~ progress_monotone_claim.
Proof.
  intros H.
  destruct (H initial [download_progress 50; download_progress 30]
              (lit "success") eq_refl) as [[_ [D _]] _].
  - repeat constructor.
  - revert D. unfold Qle. cbn. lia.
Qed.



(** ** The update flow *)

(** Case analysis on the next answer of the backend in a run. *)
Ltac answer be :=
  match goal with
  | |- context [be ?h ?c] =>
      let evs := fresh "evs" in
      let v := fresh "v" in
      let e := fresh "e" in
      destruct (be h c) as [evs [v | e]]; [cbn in v |];
      cbn -[lit trim app]
  end.

(** The listeners leave the prompt and updating cells alone. *)
Ltac past_events :=
  repeat (progress (rewrite ?on_events_prompt, ?on_events_updating;
                    cbn -[lit trim app])).

Ltac split_info :=
  repeat match goal with
         | v : FfmpegInfo |- _ => destruct v as [[] ?]
         | v : VersionInfo |- _ => destruct v as [[[| ? ?] |] ? [[| ? ?] |] []]
         | v : unit |- _ => destruct v
         end;
  cbn -[lit trim app].

(** C4. When [check_ytdlp_update] resolves with no local version and a
    non-empty download URL, the flow takes the first-install branch and
    its next invocation is [update_ytdlp] with that URL; the value of
    [update_available] plays no part (it is false for an absent local
    version). *)
Theorem first_install_invokes_update_ytdlp
        (be : backend) (tr : list call) (st : State)
        (evs : list event) (info : VersionInfo) (u : jsstring) :
  be (issued tr) check_ytdlp_update = (evs, Resolved info) ->
  local info = None ->
  download_url info = Some u ->
  u <> [] ->
  exists st1 st2 f rest,
    fst (fst (run (handleCheckUpdate st) be tr st))
    = tr ++ Call st1 check_ytdlp_update resolved
         :: Call st2 (update_ytdlp u) f :: rest
    /\ status st2
       = lit "yt-dlp not installed " ++ [8212%N] ++ lit " downloading...".
Proof.
  intros Hbe Hl Hd Hu. unfold issued in Hbe.
  destruct info as [lo la du ua]. cbn in Hl, Hd. subst lo du.
  destruct u as [| c u]; [congruence |].
  unfold handleCheckUpdate. cbn -[lit app]. rewrite Hbe. clear Hbe.
  destruct (showFfmpegPrompt st); cbn -[lit app];
  repeat (answer be; split_info);
    do 4 eexists; rewrite <- ?app_assoc; cbn [app];
    (split; [reflexivity | reflexivity]).
Qed.

Lemma first_install_witness :
  ytdlp_absent (issued []) check_ytdlp_update = ([], Resolved never_installed)
  /\ update_available never_installed = false
  /\ exists st1 st2 f rest,
      fst (fst (run (handleCheckUpdate initial) ytdlp_absent [] initial))
      = [] ++ Call st1 check_ytdlp_update resolved
           :: Call st2 (update_ytdlp (lit "https://example.org/yt-dlp.exe")) f
           :: rest
      /\ status st2
         = lit "yt-dlp not installed " ++ [8212%N] ++ lit " downloading...".
Proof.
  split; [reflexivity | split; [reflexivity |]].
  apply (first_install_invokes_update_ytdlp
           ytdlp_absent [] initial [] never_installed
           (lit "https://example.org/yt-dlp.exe")).
  - reflexivity.
  - reflexivity.
  - reflexivity.
  - vm_compute; discriminate.
Defined.

(** ** Errors reach the status bar *)

Lemma app_inv_nil {A} (l ext : list A) : l = l ++ ext -> ext = [].
Proof.
  intros E. rewrite <- (app_nil_r l) in E at 1.
  apply app_inv_head in E. now symmetry.
Qed.

Ltac new_calls T ext :=
  rewrite <- ?app_assoc in T;
  first [apply app_inv_head in T | apply app_inv_nil in T];
  subst ext.

Ltac find_rejected I F :=
  cbn [In app] in I;
  repeat (destruct I as [<- | I]; [try discriminate F |]);
  [.. | contradiction I].

(** C6. In a handler that awaits the backend (Download, Cancel, Check
    Update, Install ffmpeg), whenever one of the invocations it awaited
    was rejected with error [e], the handler ends with the status set to
    its catch text followed by [e]: ["Error: e"], ["Cancel error: e"],
    ["Update check failed: e"], ["ffmpeg install failed: e"]. *)
Theorem rejected_invocation_shown_in_status
        (be : backend) (tr : list call) (st : State) (c : control)
        (ext : list call) (k : call) (e : jsstring) :
  awaits_backend c = true ->
  fst (fst (run (callback c st) be tr st)) = tr ++ ext ->
  In k ext ->
  fate_of k = rejected e ->
  status (snd (fst (run (callback c st) be tr st))) = catch_label c ++ e.
Proof.
  intros A T I F. revert T.
  destruct c; try discriminate A; clear A; cbn [callback catch_label].
  - (* handleDownload *)
    unfold handleDownload. destruct (truthy (trim (url st)));
      cbn -[lit trim app].
    + answer be; split_info; intros T; new_calls T ext; find_rejected I F.
      cbn in F. injection F as <-. reflexivity.
    + intros T; new_calls T ext. contradiction I.
  - (* handleCancel *)
    unfold handleCancel. cbn -[lit trim app].
    answer be; split_info; intros T; new_calls T ext; find_rejected I F.
    cbn in F. injection F as <-. reflexivity.
  - (* handleCheckUpdate *)
    unfold handleCheckUpdate.
    destruct (showFfmpegPrompt st); cbn -[lit trim app];
      repeat (answer be; split_info);
      intros T; new_calls T ext; find_rejected I F;
      cbn in F; injection F as <-; reflexivity.
  - (* handleInstallFfmpeg *)
    unfold handleInstallFfmpeg. cbn -[lit trim app].
    repeat (answer be; split_info);
      intros T; new_calls T ext; find_rejected I F;
      cbn in F; injection F as <-; reflexivity.
Qed.

Lemma rejected_start_download_witness :
  status (snd (fst (run (callback DownloadButton sample_request) failing []
                        sample_request)))
  = lit "Error: " ++ lit "boom".
Proof.
  apply (rejected_invocation_shown_in_status
           failing [] sample_request DownloadButton
           (fst (fst (run (callback DownloadButton sample_request) failing []
                          sample_request)))
           (last (fst (fst (run (callback DownloadButton sample_request)
                                failing [] sample_request)))
                 (Call initial cancel_download dropped))
           (lit "boom")).
  - reflexivity.
  - reflexivity.
  - vm_compute. right; left; reflexivity.
  - reflexivity.
Defined.

(** The promises the component drops are outside this property: a rejected
    [get_settings] of the mount effect changes nothing on screen. *)
Example mount_rejection_not_shown :
  run loadSettings failing [] initial
  = ([Call initial get_settings (rejected (lit "boom"))], initial,
     Uncaught (lit "boom")).
Proof. reflexivity. Qed.

(** The same at the other three handlers. *)
Example rejected_elsewhere :
  status (snd (click failing CancelButton [] (setDownloading true initial)))
  = lit "Cancel error: boom" /\
  status (snd (click failing CheckUpdateButton [] initial))
  = lit "Update check failed: boom" /\
  status (snd (click failing InstallFfmpegButton []
                     (setShowFfmpegPrompt true initial)))
  = lit "ffmpeg install failed: boom".
Proof. repeat split; reflexivity. Qed.

(** ** The updating flag *)

(** While the flow runs the flag is up: every invocation of the flow is
    issued in a state whose updating flag is set. *)
Lemma updating_set_during_check
      (be : backend) (tr : list call) (st : State) (ext : list call) :
  fst (fst (run (handleCheckUpdate st) be tr st)) = tr ++ ext ->
  Forall (fun k => updating (issued_in k) = true) ext.
Proof.
  unfold handleCheckUpdate.
  destruct (showFfmpegPrompt st); cbn -[lit trim app];
    repeat (answer be; split_info);
    intros T; new_calls T ext;
    repeat constructor; past_events; reflexivity.
Qed.

(** The [finally] clause reads the prompt flag of the render that created
    the handler.  Started with the prompt hidden, the flow therefore lowers
    the updating flag when it ends, whatever the backend answered, also
    when it has just raised the prompt. *)
Lemma updating_lowered_when_started_without_prompt
      (be : backend) (tr : list call) (st : State) :
  showFfmpegPrompt st = false ->
  updating (snd (fst (run (handleCheckUpdate st) be tr st))) = false.
Proof.
  intros P. unfold handleCheckUpdate. rewrite P.
  cbn -[lit trim app];
    repeat (answer be; split_info); reflexivity.
Qed.

(** C2 (what the code does). From the initial state, a Check Update click
    against a backend that reports ffmpeg missing ends with the
    confirmation prompt displayed, the updating flag lowered and the Check
    Update control operable; a second click is accepted and runs the whole
    flow again. *)
Theorem updating_lowered_while_prompt_unanswered :
  showFfmpegPrompt (snd (click ffmpeg_missing CheckUpdateButton [] initial))
  = true /\
  updating (snd (click ffmpeg_missing CheckUpdateButton [] initial))
  = false /\
  available (snd (click ffmpeg_missing CheckUpdateButton [] initial))
            CheckUpdateButton = true /\
  issued (fst (session ffmpeg_missing
                 [Click CheckUpdateButton; Click CheckUpdateButton]
                 ([], initial)))
  = [check_ytdlp_update; check_ffmpeg; check_dependencies;
     check_ytdlp_update; check_ffmpeg; check_dependencies].
Proof. repeat split; reflexivity. Qed.

(** ** Installing ffmpeg needs the confirmation *)

Section FfmpegConfirmation.

Variable be : backend.

(** No callback but the one of the Install button invokes
    [install_ffmpeg]. *)
Lemma callback_never_installs (tr : list call) (st : State) (c : control) :
  c <> InstallFfmpegButton ->
  exists ext,
    fst (fst (run (callback c st) be tr st)) = tr ++ ext /\
    Forall (fun k => cmd k <> install_ffmpeg) ext.
Proof.
  intros NI. destruct c; try congruence; clear NI; cbn [callback].
  - exists []. cbn. now rewrite app_nil_r.
  - eexists. cbn. split; [reflexivity | repeat constructor; discriminate].
  - eexists. cbn. split; [reflexivity | repeat constructor; discriminate].
  - destruct selected as [[| a p] |]; cbn.
    + exists []. now rewrite app_nil_r.
    + eexists. split; [reflexivity | repeat constructor; discriminate].
    + exists []. now rewrite app_nil_r.
  - unfold handleDownload. destruct (truthy (trim (url st)));
      cbn -[lit trim app].
    + answer be; split_info; eexists; rewrite <- ?app_assoc;
        (split; [reflexivity | repeat constructor; discriminate]).
    + exists []. now rewrite app_nil_r.
  - unfold handleCancel. cbn -[lit trim app].
    answer be; split_info; eexists; rewrite <- ?app_assoc;
      (split; [reflexivity | repeat constructor; discriminate]).
  - unfold handleCheckUpdate.
    destruct (showFfmpegPrompt st); cbn -[lit trim app];
      repeat (answer be; split_info);
      eexists; rewrite <- ?app_assoc;
      (split; [reflexivity | repeat constructor; discriminate]).
  - exists []. cbn. now rewrite app_nil_r.
Qed.

(** One user action: an [install_ffmpeg] call that was not in the trace
    before comes from the Install button of a displayed prompt. *)
Lemma click_installs_only_on_confirm
      (tr : list call) (st : State) (c : control) (k : call) :
  In k (fst (click be c tr st)) ->
  cmd k = install_ffmpeg ->
  In k tr \/ (c = InstallFfmpegButton /\ showFfmpegPrompt st = true).
Proof.
  unfold click. destruct (available st c) eqn:Av; [| now left].
  intros I K.
  assert (D : {c = InstallFfmpegButton} + {c <> InstallFfmpegButton})
    by (destruct c; (now left) || (right; discriminate)).
  destruct D as [-> | NI]; [right; split; [reflexivity | exact Av] |].
  destruct (callback_never_installs tr st c NI) as [ext [E F]].
  rewrite E in I. apply in_app_or in I. destruct I as [I | I]; [now left |].
  rewrite Forall_forall in F. now destruct (F k I).
Qed.

(** The prompt is raised by the update flow only. *)
Lemma prompt_raised_only_by_check
      (tr : list call) (st : State) (c : control) :
  showFfmpegPrompt (snd (fst (run (callback c st) be tr st))) = true ->
  showFfmpegPrompt st = true \/ c = CheckUpdateButton.
Proof.
  destruct c; cbn [callback]; try (now right); try (cbn; now left).
  - destruct selected as [[| a p] |]; cbn; now left.
  - unfold handleDownload. destruct (truthy (trim (url st)));
      cbn -[lit trim app]; [| now left].
    answer be; split_info; past_events; now left.
  - unfold handleCancel. cbn -[lit trim app].
    answer be; split_info; past_events; now left.
  - unfold handleInstallFfmpeg. cbn -[lit trim app].
    repeat (answer be; split_info); past_events; discriminate.
Qed.

(** Over a whole session, every [install_ffmpeg] call that was not in the
    trace at the start was issued by a click on the Install button made
    while the prompt was displayed. *)
Lemma session_installs_only_on_confirm
      (inputs : list input) (tr : list call) (st : State) (k : call) :
  In k (fst (session be inputs (tr, st))) ->
  cmd k = install_ffmpeg ->
  In k tr \/
  exists pre post,
    inputs = pre ++ Click InstallFfmpegButton :: post /\
    showFfmpegPrompt (snd (session be pre (tr, st))) = true.
Proof.
  revert tr st; induction inputs as [| i rest IH]; intros tr st I K.
  - now left.
  - change (session be (i :: rest) (tr, st))
      with (session be rest (step be (tr, st) i)) in I.
    destruct (step be (tr, st) i) as [tr1 st1] eqn:S.
    destruct (IH tr1 st1 I K) as [I1 | (pre & post & E & P)].
    + destruct i as [c | e]; cbn [step fst snd] in S.
      * assert (I2 : In k (fst (click be c tr st))) by now rewrite S.
        destruct (click_installs_only_on_confirm tr st c k I2 K)
          as [? | [-> P]]; [now left |].
        right. exists [], rest. split; [reflexivity | exact P].
      * injection S as <- _. now left.
    + right. exists (i :: pre), post. split.
      * cbn. now rewrite E.
      * change (session be (i :: pre) (tr, st))
          with (session be pre (step be (tr, st) i)).
        now rewrite S.
Qed.

(** With ffmpeg reported missing, an update flow that gets as far as the
    ffmpeg check ends with the prompt displayed, and the flow itself
    invokes no [install_ffmpeg]. *)
Lemma check_update_only_prompts
      (tr : list call) (st : State) (ext : list call) (k : call) :
  reports_ffmpeg_missing be ->
  fst (fst (run (handleCheckUpdate st) be tr st)) = tr ++ ext ->
  In k ext -> cmd k = check_ffmpeg ->
  showFfmpegPrompt (snd (fst (run (handleCheckUpdate st) be tr st))) = true
  /\ Forall (fun k => cmd k <> install_ffmpeg) ext.
Proof.
  intros M T I K. split.
  - revert T. unfold handleCheckUpdate.
    destruct (showFfmpegPrompt st); cbn -[lit trim app];
      repeat
        (match goal with
         | |- context [be ?h check_ffmpeg] =>
             let evs := fresh "evs" in
             let info := fresh "info" in
             let E := fresh "E" in
             let Hi := fresh "Hi" in
             destruct (M h) as (evs & info & E & Hi); rewrite E; clear E;
             destruct info as [ins ver]; cbn in Hi; subst ins;
             cbn -[lit trim app]
         | |- _ => answer be; split_info
         end);
      intros T; new_calls T ext;
      try (past_events; reflexivity);
      cbn [In] in I;
      repeat (destruct I as [<- | I]; [try discriminate K |]);
      contradiction I.
  - destruct (callback_never_installs tr st CheckUpdateButton)
      as [ext' [E F]]; [discriminate |].
    cbn [callback] in E. rewrite T in E. apply app_inv_head in E.
    now subst ext'.
Qed.

(** Declining invokes nothing and lowers both the prompt and the
    updating flag. *)
Lemma decline_installs_nothing (tr : list call) (st : State) :
  run handleDeclineFfmpeg be tr st
  = (tr,
     setStatus (lit "ffmpeg installation skipped")
       (setUpdating false (setShowFfmpegPrompt false st)),
     Returned tt).
Proof. reflexivity. Qed.

End FfmpegConfirmation.

(** C10. [install_ffmpeg] is only ever invoked from the confirm action of
    the prompt.  For every backend: (1) over any session of user actions and
    events, each [install_ffmpeg] call that was not already in the trace was
    issued by a click on the Install button made while the prompt was
    displayed; (2) the prompt is raised by the Check Update flow only;
    (3) when ffmpeg is reported missing, the flow ends with the prompt
    displayed and invokes no [install_ffmpeg] itself; (4) declining lowers
    the prompt and the updating flag, sets the status to "skipped" and
    invokes nothing. *)
Theorem install_ffmpeg_requires_confirmation (be : backend) :
  (forall inputs tr st k,
      In k (fst (session be inputs (tr, st))) ->
      cmd k = install_ffmpeg ->
      In k tr \/
      exists pre post,
        inputs = pre ++ Click InstallFfmpegButton :: post /\
        showFfmpegPrompt (snd (session be pre (tr, st))) = true) /\
  (forall tr st c,
      showFfmpegPrompt (snd (fst (run (callback c st) be tr st))) = true ->
      showFfmpegPrompt st = true \/ c = CheckUpdateButton) /\
  (reports_ffmpeg_missing be ->
   forall tr st ext k,
     fst (fst (run (handleCheckUpdate st) be tr st)) = tr ++ ext ->
     In k ext -> cmd k = check_ffmpeg ->
     showFfmpegPrompt (snd (fst (run (handleCheckUpdate st) be tr st))) = true
     /\ Forall (fun k => cmd k <> install_ffmpeg) ext) /\
  (forall tr st,
      run handleDeclineFfmpeg be tr st
      = (tr,
         setStatus (lit "ffmpeg installation skipped")
           (setUpdating false (setShowFfmpegPrompt false st)),
         Returned tt)).
Proof.
  split; [| split; [| split]].
  - intros inputs tr st k. apply session_installs_only_on_confirm.
  - intros tr st c. apply prompt_raised_only_by_check.
  - intros M tr st ext k T I K.
    exact (check_update_only_prompts be tr st ext k M T I K).
  - intros tr st. apply decline_installs_nothing.
Qed.

(** Three sessions against a backend without ffmpeg: declining, confirming,
    and a confirm click with no prompt on screen. *)
Example sessions_around_the_prompt :
  issued (fst (session ffmpeg_missing
                 [Click CheckUpdateButton; Click SkipButton] ([], initial)))
  = [check_ytdlp_update; check_ffmpeg; check_dependencies] /\
  issued (fst (session ffmpeg_missing
                 [Click CheckUpdateButton; Click InstallFfmpegButton]
                 ([], initial)))
  = [check_ytdlp_update; check_ffmpeg; check_dependencies;
     install_ffmpeg; check_dependencies] /\
  session ffmpeg_missing [Click InstallFfmpegButton] ([], initial)
  = ([], initial).
Proof. repeat split; reflexivity. Qed.

(** * Further properties of the component *)

(** ** What the listeners leave alone *)

Lemma on_events_savePath evs s : savePath (on_events evs s) = savePath s.
Proof. apply on_events_frame. Qed.

Lemma on_events_format evs s : format (on_events evs s) = format s.
Proof. apply on_events_frame. Qed.

Lemma on_events_playlist evs s : playlist (on_events evs s) = playlist s.
Proof. apply on_events_frame. Qed.

Lemma on_events_url evs s : url (on_events evs s) = url s.
Proof. apply on_events_frame. Qed.

Lemma on_events_deps evs s : deps (on_events evs s) = deps s.
Proof. apply on_events_frame. Qed.

(** The cells the listeners never write, seen through a run. *)
Ltac frame_events :=
  repeat (progress (rewrite ?on_events_savePath, ?on_events_format,
                      ?on_events_playlist, ?on_events_url, ?on_events_deps,
                      ?on_events_prompt, ?on_events_updating;
                    cbn -[lit trim app])).

Lemma displayed_settings_on_events (evs : list event) (s : State) :
  displayed_settings (on_events evs s) = displayed_settings s.
Proof.
  unfold displayed_settings.
  destruct (on_events_frame evs s) as (_ & F & P & S & _).
  now rewrite F, P, S.
Qed.

Lemma downloading_on_event (e : event) (s : State) :
  downloading (on_event e s) = downloading s && negb (is_completion e).
Proof.
  destruct e as [l | q | o | l]; unfold on_event;
    [ | | destruct (eqb o (lit "success")) | ]; cbn;
    now rewrite ?andb_true_r, ?andb_false_r.
Qed.

Lemma downloading_on_events (evs : list event) (s : State) :
  downloading (on_events evs s)
  = downloading s && negb (existsb is_completion evs).
Proof.
  revert s; induction evs as [| e evs IH]; intros s.
  - cbn. now rewrite andb_true_r.
  - change (on_events (e :: evs) s) with (on_events evs (on_event e s)).
    rewrite IH, downloading_on_event. cbn [existsb].
    rewrite negb_orb. now rewrite andb_assoc.
Qed.

(** The callbacks that do not call [saveCurrentSettings] issue neither
    [save_settings] nor [start_download]. *)
Lemma other_callbacks_neither_save_nor_start
      (be : backend) (tr : list call) (st : State) (c : control) :
  saves_settings c = false ->
  exists ext,
    fst (fst (run (callback c st) be tr st)) = tr ++ ext /\
    Forall (fun k => saves_or_starts (cmd k) = false) ext.
Proof.
  intros NS. destruct c; try discriminate NS; clear NS; cbn [callback].
  - exists []. cbn. now rewrite app_nil_r.
  - unfold handleCancel. cbn -[lit trim app].
    answer be; split_info; eexists; rewrite <- ?app_assoc;
      (split; [reflexivity | repeat constructor]).
  - unfold handleCheckUpdate.
    destruct (showFfmpegPrompt st); cbn -[lit trim app];
      repeat (answer be; split_info);
      eexists; rewrite <- ?app_assoc;
      (split; [reflexivity | repeat constructor]).
  - unfold handleInstallFfmpeg. cbn -[lit trim app].
    repeat (answer be; split_info); eexists; rewrite <- ?app_assoc;
      (split; [reflexivity | repeat constructor]).
  - exists []. cbn. now rewrite app_nil_r.
Qed.

Ltac pick_call I K :=
  cbn [In app] in I;
  repeat (destruct I as [<- | I]; [try discriminate K |]);
  [.. | contradiction I].


(** ** Who starts a download, and when *)

Section DownloadOrigin.

Variable be : backend.

Lemma click_starts_only_when_idle
      (tr : list call) (st : State) (c : control) (k : call)
      (u f : jsstring) (p : bool) (sp : jsstring) :
  In k (fst (click be c tr st)) ->
  cmd k = start_download u f p sp ->
  In k tr \/
  (c = DownloadButton /\
   downloading st = false /\ ytdlp (deps st) = true /\
   u = trim (url st) /\ u <> [] /\
   f = format st /\ p = playlist st /\ sp = savePath st).
Proof.
  unfold click. destruct (available st c) eqn:Av; [| now left].
  intros I K.
  destruct (saves_settings c) eqn:S.
  - destruct c; try discriminate S; clear S; cbn [callback] in I.
    + cbn in I. apply in_app_or in I. destruct I as [I | I]; [now left |].
      pick_call I K.
    + cbn in I. apply in_app_or in I. destruct I as [I | I]; [now left |].
      pick_call I K.
    + destruct selected as [[| a q] |]; cbn in I; try (now left).
      apply in_app_or in I. destruct I as [I | I]; [now left |].
      pick_call I K.
    + destruct (forallb is_ws (url st)) eqn:W.
      * unfold handleDownload in I. rewrite trim_blank, W in I. now left.
      * destruct (handleDownload_accepted be tr st W) as [r E].
        cbn zeta in E. rewrite E in I.
        apply in_app_or in I. destruct I as [I | I]; [now left |].
        right. pick_call I K. cbn in K. injection K as <- <- <- <-.
        cbn in Av. apply andb_prop in Av. destruct Av as [D Y].
        apply negb_true_iff in D. rewrite negb_involutive in Y.
        repeat split; trivial.
        pose proof (trim_blank (url st)) as T. rewrite W in T.
        intros Z. rewrite Z in T. discriminate T.
  - destruct (other_callbacks_neither_save_nor_start be tr st c S)
      as [ext [E F]].
    rewrite E in I. apply in_app_or in I. destruct I as [I | I]; [now left |].
    rewrite Forall_forall in F. specialize (F k I).
    rewrite K in F. discriminate F.
Qed.

End DownloadOrigin.

(** X2. Over any session of user actions and events, every
    [start_download] call that was not already in the trace was issued by a
    click on the Download button made while no download was in progress and
    yt-dlp was reported present; its arguments are the trimmed, non-empty
    URL and the format, playlist mode and save path displayed at that
    click. *)
Theorem session_starts_only_when_idle
        (be : backend) (inputs : list input) (tr : list call) (st : State)
        (k : call) (u f : jsstring) (p : bool) (sp : jsstring) :
  In k (fst (session be inputs (tr, st))) ->
  cmd k = start_download u f p sp ->
  In k tr \/
  exists pre post,
    inputs = pre ++ Click DownloadButton :: post /\
    downloading (snd (session be pre (tr, st))) = false /\
    ytdlp (deps (snd (session be pre (tr, st)))) = true /\
    u = trim (url (snd (session be pre (tr, st)))) /\ u <> [] /\
    f = format (snd (session be pre (tr, st))) /\
    p = playlist (snd (session be pre (tr, st))) /\
    sp = savePath (snd (session be pre (tr, st))).
Proof.
  revert tr st; induction inputs as [| i rest IH]; intros tr st I K.
  - now left.
  - change (session be (i :: rest) (tr, st))
      with (session be rest (step be (tr, st) i)) in I.
    destruct (step be (tr, st) i) as [tr1 st1] eqn:S.
    destruct (IH tr1 st1 I K) as [I1 | (pre & post & E & P)].
    + destruct i as [c | e]; cbn [step fst snd] in S.
      * assert (I2 : In k (fst (click be c tr st))) by now rewrite S.
        destruct (click_starts_only_when_idle be tr st c k u f p sp I2 K)
          as [? | [-> P]]; [now left |].
        right. exists [], rest. split; [reflexivity | exact P].
      * injection S as <- _. now left.
    + right. exists (i :: pre), post. split.
      * cbn. now rewrite E.
      * change (session be (i :: pre) (tr, st))
          with (session be pre (step be (tr, st) i)).
        now rewrite S.
Qed.

Ltac through_downloading :=
  repeat (progress (rewrite ?downloading_on_events; cbn -[lit trim app])).

(** X3. The downloading flag is raised by the Download button only: if it
    is up after an input (a click on any control, or a backend event), it
    was up before or the input was a click on Download. *)
Theorem downloading_raised_only_by_download
        (be : backend) (tr : list call) (st : State) (i : input) :
  downloading (snd (step be (tr, st) i)) = true ->
  downloading st = true \/ i = Click DownloadButton.
Proof.
  destruct i as [c | e]; cbn [step fst snd].
  - unfold click. destruct (available st c); [| now left].
    destruct c; cbn [callback]; try (now right); try (cbn; now left).
    + destruct selected as [[| a p] |]; cbn; now left.
    + unfold handleCancel. cbn -[lit trim app].
      answer be; split_info; through_downloading;
        destruct (downloading st); cbn; auto.
    + unfold handleCheckUpdate.
      destruct (showFfmpegPrompt st); cbn -[lit trim app];
        repeat (answer be; split_info); through_downloading;
        destruct (downloading st); cbn; auto.
    + unfold handleInstallFfmpeg. cbn -[lit trim app].
      repeat (answer be; split_info); through_downloading;
        destruct (downloading st); cbn; auto.
  - rewrite downloading_on_event. destruct (downloading st); cbn; auto.
Qed.

Lemma logs_on_events (evs : list event) (s : State) :
  logs (on_events evs s) = logs s ++ log_lines evs.
Proof.
  revert s; induction evs as [| e evs IH]; intros s.
  - cbn. now rewrite app_nil_r.
  - change (on_events (e :: evs) s) with (on_events evs (on_event e s)).
    rewrite IH, logs_on_event, (log_lines_cons e evs), app_assoc.
    reflexivity.
Qed.

(** X4. An accepted request starts from an empty log: when its handler has
    run, the log holds exactly the lines of the events delivered while
    [start_download] was pending.  If the promise was rejected the
    downloading flag is down again; if it resolved, the flag is up unless a
    completion event already arrived. *)
Theorem accepted_download_end_state
        (be : backend) (tr : list call) (st : State)
        (evs : list event) (r : result unit) :
  forallb is_ws (url st) = false ->
  be (issued tr ++ [save_settings (displayed_settings st)])
     (start_download (trim (url st)) (format st) (playlist st) (savePath st))
  = (evs, r) ->
  logs (snd (fst (run (handleDownload st) be tr st))) = log_lines evs /\
  downloading (snd (fst (run (handleDownload st) be tr st)))
  = match r with
    | Resolved _ => negb (existsb is_completion evs)
    | Rejected _ => false
    end.
Proof.
  intros W B. unfold handleDownload. rewrite trim_blank, W.
  cbn -[lit trim app]. rewrite map_app. cbn [map cmd].
  unfold issued, displayed_settings in B. rewrite B.
  destruct r as [[] | e]; cbn -[lit trim app];
    rewrite ?logs_on_events, ?downloading_on_events; cbn; auto.
Qed.

(** X5. Cancel issues one invocation, [cancel_download], and keeps the job
    view: the log is the log before followed by the lines delivered
    meanwhile and the progress is what the events left.  When the promise
    resolves the downloading flag is lowered; when it is rejected the flag
    stays as the events left it. *)
Theorem cancel_keeps_the_log
        (be : backend) (tr : list call) (st : State)
        (evs : list event) (r : result unit) :
  be (issued tr) cancel_download = (evs, r) ->
  fst (fst (run handleCancel be tr st))
  = tr ++ [Call st cancel_download (fate_of_result r)] /\
  logs (snd (fst (run handleCancel be tr st))) = logs st ++ log_lines evs /\
  progress (snd (fst (run handleCancel be tr st)))
  = progress (on_events evs st) /\
  downloading (snd (fst (run handleCancel be tr st)))
  = match r with
    | Resolved _ => false
    | Rejected _ => downloading st && negb (existsb is_completion evs)
    end.
Proof.
  intros B. unfold handleCancel. cbn -[lit trim app].
  unfold issued in B. rewrite B.
  destruct r as [[] | e]; cbn -[lit trim app];
    rewrite ?logs_on_events, ?downloading_on_events; auto.
Qed.

(** ** The update flow, further *)

(** X6. The update flow invokes [update_ytdlp] only with the non-empty
    download URL that [check_ytdlp_update] resolved with in the same flow,
    and only when that answer has no local version or says an update is
    available. *)
Theorem update_ytdlp_only_when_reported
        (be : backend) (tr : list call) (st : State)
        (evs : list event) (r : result VersionInfo)
        (ext : list call) (k : call) (u : jsstring) :
  be (issued tr) check_ytdlp_update = (evs, r) ->
  fst (fst (run (handleCheckUpdate st) be tr st)) = tr ++ ext ->
  In k ext ->
  cmd k = update_ytdlp u ->
  exists info,
    r = Resolved info /\
    download_url info = Some u /\ u <> [] /\
    (truthy_opt (local info) = false \/ update_available info = true).
Proof.
  intros B T I K. revert T. unfold issued in B.
  unfold handleCheckUpdate.
  destruct (showFfmpegPrompt st); cbn -[lit trim app]; rewrite B; clear B;
    (destruct r as [info | e]; [cbn in info |]); cbn -[lit trim app];
    split_info; repeat (answer be; split_info);
    intros T; new_calls T ext; pick_call I K;
    cbn in K; injection K as <-;
    (eexists; split; [reflexivity |]; cbn;
     split; [reflexivity |]; split; [discriminate | auto]).
Qed.



(** X9. When yt-dlp has no local version and the answer carries no
    download URL, the flow installs nothing and goes on: the ffmpeg check is
    issued under the status "yt-dlp not installed (dash) downloading...",
    and with ffmpeg installed the dependency refresh is issued under the
    status "Everything is up to date". *)
Theorem absent_ytdlp_without_url_reported_up_to_date
        (be : backend) (tr : list call) (st : State)
        (evs evs' : list event) (info : VersionInfo) (ff : FfmpegInfo) :
  be (issued tr) check_ytdlp_update = (evs, Resolved info) ->
  truthy_opt (local info) = false ->
  truthy_opt (download_url info) = false ->
  be (issued tr ++ [check_ytdlp_update]) check_ffmpeg = (evs', Resolved ff) ->
  installed ff = true ->
  exists st1 st2 st3 f,
    fst (fst (run (handleCheckUpdate st) be tr st))
    = tr ++ [Call st1 check_ytdlp_update resolved;
             Call st2 check_ffmpeg resolved;
             Call st3 check_dependencies f] /\
    status st2
    = lit "yt-dlp not installed " ++ [8212%N] ++ lit " downloading..." /\
    status st3 = lit "Everything is up to date".
Proof.
  intros B L D B' F. unfold issued in B, B'.
  unfold handleCheckUpdate.
  destruct info as [lo la du ua]; destruct ff as [ins ver];
    cbn in L, D, F; subst ins.
  destruct (showFfmpegPrompt st); cbn -[lit trim app]; rewrite B;
    cbn -[lit trim app];
    destruct lo as [[| ? ?] |]; try discriminate L;
    destruct du as [[| ? ?] |]; try discriminate D;
    cbn -[lit trim app];
    rewrite map_app; cbn [map cmd]; rewrite B'; cbn -[lit trim app];
    answer be; split_info;
    do 4 eexists; rewrite <- ?app_assoc; cbn [app];
    (split; [reflexivity | split; reflexivity]).
Qed.

(** ** The mount effect *)

(** X10. Settings round trip: when [get_settings] resolves with [s] at
    mount, the interface displays [s], and the next accepted download
    request passes exactly [s] to [save_settings]. *)
Theorem loaded_settings_are_saved_back
        (be be' : backend) (tr : list call) (st : State)
        (evs : list event) (s : Settings) (u : jsstring) :
  be (issued tr) get_settings = (evs, Resolved s) ->
  forallb is_ws u = false ->
  displayed_settings (snd (fst (run loadSettings be tr st))) = s /\
  In (save_settings s)
     (issued
        (fst (fst (run (handleDownload
                          (setUrl u (snd (fst (run loadSettings be tr st)))))
                       be' []
                       (setUrl u (snd (fst (run loadSettings be tr st)))))))).
Proof.
  intros B W. unfold issued in B.
  assert (E : snd (fst (run loadSettings be tr st))
              = setPlaylist (playlist_mode s)
                  (setFormat (audio_format s)
                     (setSavePath (save_path s) (on_events evs st)))).
  { unfold loadSettings. cbn -[lit trim app]. rewrite B. reflexivity. }
  rewrite E. split.
  - now destruct s.
  - match goal with
    | |- context [handleDownload ?x] =>
        destruct (handleDownload_accepted be' [] x W) as [f H]
    end.
    cbn zeta in H. rewrite H. cbn. left. now destruct s.
Qed.

(** X11. Nothing catches the promises of the mount effect: a rejected
    [get_settings] or [check_dependencies] leaves the state as the events
    left it (no status text) and the rejection stays unhandled. *)
Theorem mount_rejections_are_silent
        (be : backend) (tr : list call) (st : State)
        (evs : list event) (e : jsstring) :
  (be (issued tr) get_settings = (evs, Rejected e) ->
   run loadSettings be tr st
   = (tr ++ [Call st get_settings (rejected e)], on_events evs st,
      Uncaught e)) /\
  (be (issued tr) check_dependencies = (evs, Rejected e) ->
   run refreshDeps be tr st
   = (tr ++ [Call st check_dependencies (rejected e)], on_events evs st,
      Uncaught e)).
Proof.
  unfold issued, loadSettings, refreshDeps.
  split; intros B; cbn -[lit trim app]; rewrite B; reflexivity.
Qed.

(** ** [trim], further *)

Lemma trimStart_ws_prefix (l x : jsstring) :
  forallb is_ws l = true -> trimStart (l ++ x) = trimStart x.
Proof.
  induction l as [| c l IH]; [reflexivity |].
  cbn. destruct (is_ws c); [exact IH | discriminate].
Qed.

Lemma trimStart_fixed (x : jsstring) :
  (forall c, hd_error x = Some c -> is_ws c = false) -> trimStart x = x.
Proof.
  destruct x as [| c x]; [reflexivity |].
  intros H. cbn. now rewrite (H c eq_refl).
Qed.

Lemma trim_is_the_stripped_string (s u : jsstring) :
  stripped s u -> trim s = u.
Proof.
  intros (l & r & E & Wl & Wr & Hh & Hl). subst s.
  unfold trim. rewrite (trimStart_ws_prefix l _ Wl).
  destruct u as [| c u].
  - cbn [app]. apply trimStart_nil in Wr. now rewrite Wr.
  - rewrite (trimStart_fixed ((c :: u) ++ r)) by exact Hh.
    unfold trimEnd. rewrite rev_app_distr.
    rewrite trimStart_ws_prefix by now rewrite forallb_rev.
    rewrite (trimStart_fixed _ Hl). apply rev_involutive.
Qed.

Lemma trim_idempotent (s : jsstring) : trim (trim s) = trim s.
Proof.
  apply trim_is_the_stripped_string.
  destruct (trim_stripped s) as (l & r & _ & _ & _ & Hh & Hl).
  exists [], []. rewrite app_nil_r. repeat split; trivial.
Qed.

(** X12. However the typed URL is read as white space, a non-empty core
    with no white space at either end, white space, that core is the url
    argument of the [start_download] the request issues. *)
Theorem start_download_sends_the_stripped_core
        (be : backend) (tr : list call) (st : State) (u : jsstring) :
  stripped (url st) u ->
  u <> [] ->
  In (start_download u (format st) (playlist st) (savePath st))
     (issued (fst (fst (run (handleDownload st) be tr st)))).
Proof.
  intros S N.
  pose proof (trim_is_the_stripped_string _ _ S) as E.
  assert (W : forallb is_ws (url st) = false).
  { pose proof (trim_blank (url st)) as T. rewrite E in T.
    destruct u; [congruence |]. cbn in T.
    now destruct (forallb is_ws (url st)). }
  destruct (handleDownload_accepted be tr st W) as [f H].
  cbn zeta in H. rewrite H. unfold issued. rewrite map_app.
  apply in_or_app. right. cbn. right. left. now rewrite E.
Qed.

(** ** Events and the controls *)

(** X13. A backend event never takes a control away from the user,
    Cancel apart: a control other than Cancel that can be operated before a
    run of events can be operated after it. *)
Theorem events_never_disable_a_control
        (evs : list event) (s : State) (c : control) :
  c <> CancelButton ->
  available s c = true ->
  available (on_events evs s) c = true.
Proof.
  intros NC A.
  destruct c; try congruence; cbn [available] in *;
    rewrite ?downloading_on_events, ?on_events_deps, ?on_events_updating,
      ?on_events_prompt;
    trivial;
    destruct (downloading s); cbn in *; trivial; discriminate.
Qed.

(** X14. The listeners never write the URL, the displayed settings, the
    dependency status, the updating flag or the prompt flag, and they never
    raise the downloading flag. *)
Theorem listeners_write_only_job_cells (evs : list event) (s : State) :
  url (on_events evs s) = url s /\
  displayed_settings (on_events evs s) = displayed_settings s /\
  deps (on_events evs s) = deps s /\
  updating (on_events evs s) = updating s /\
  showFfmpegPrompt (on_events evs s) = showFfmpegPrompt s /\
  (downloading s = false -> downloading (on_events evs s) = false).
Proof.
  destruct (on_events_frame evs s) as (U & F & P & S & D & Up & Pr).
  repeat split; trivial.
  - apply displayed_settings_on_events.
  - intros H. rewrite downloading_on_events, H. reflexivity.
Qed.


(** X16. While a download is in progress no user action changes the
    request: whatever control is clicked, the URL and the displayed
    settings are the same afterwards. *)
Theorem request_frozen_while_downloading
        (be : backend) (tr : list call) (st : State) (c : control) :
  downloading st = true ->
  url (snd (click be c tr st)) = url st /\
  displayed_settings (snd (click be c tr st)) = displayed_settings st.
Proof.
  intros D. unfold click.
  destruct (available st c) eqn:Av; [| split; reflexivity].
  destruct c; cbn [available] in Av; rewrite ?D in Av;
    try discriminate Av; cbn [callback].
  - unfold handleCancel. cbn -[lit trim app].
    answer be; split_info; unfold displayed_settings; frame_events;
      split; reflexivity.
  - unfold handleInstallFfmpeg. cbn -[lit trim app].
    repeat (answer be; split_info); unfold displayed_settings; frame_events;
      split; reflexivity.
  - cbn. split; reflexivity.
Qed.

(** ** Instances of the further properties *)


Lemma session_starts_witness :
  In (nth 1 (fst (session ffmpeg_missing
                    [Click (UrlInput (lit " https://youtu.be/abc "));
                     Click DownloadButton] ([], initial))) no_call) [] \/
  exists pre post,
    [Click (UrlInput (lit " https://youtu.be/abc ")); Click DownloadButton]
    = pre ++ Click DownloadButton :: post /\
    downloading (snd (session ffmpeg_missing pre ([], initial))) = false /\
    ytdlp (deps (snd (session ffmpeg_missing pre ([], initial)))) = true /\
    lit "https://youtu.be/abc"
    = trim (url (snd (session ffmpeg_missing pre ([], initial)))) /\
    lit "https://youtu.be/abc" <> [] /\
    lit "best" = format (snd (session ffmpeg_missing pre ([], initial))) /\
    false = playlist (snd (session ffmpeg_missing pre ([], initial))) /\
    [] = savePath (snd (session ffmpeg_missing pre ([], initial))).
Proof.
  apply (session_starts_only_when_idle
           ffmpeg_missing
           [Click (UrlInput (lit " https://youtu.be/abc "));
            Click DownloadButton] [] initial).
  - vm_compute. right; left; reflexivity.
  - reflexivity.
Defined.

Lemma downloading_raised_witness :
  downloading sample_request = true \/
  Click DownloadButton = Click DownloadButton.
Proof.
  apply (downloading_raised_only_by_download ffmpeg_missing []
           sample_request (Click DownloadButton)).
  reflexivity.
Defined.

Lemma accepted_download_end_witness :
  logs (snd (fst (run (handleDownload sample_request) failing []
                      sample_request))) = log_lines [] /\
  downloading (snd (fst (run (handleDownload sample_request) failing []
                             sample_request))) = false.
Proof.
  apply (accepted_download_end_state failing [] sample_request []
           (Rejected (lit "boom"))).
  - reflexivity.
  - reflexivity.
Defined.

Lemma cancel_keeps_the_log_witness :
  fst (fst (run handleCancel cancel_emits_first [] sample_job))
  = [] ++ [Call sample_job cancel_download resolved] /\
  logs (snd (fst (run handleCancel cancel_emits_first [] sample_job)))
  = logs sample_job ++ log_lines [download_complete (lit "cancelled")] /\
  progress (snd (fst (run handleCancel cancel_emits_first [] sample_job)))
  = progress (on_events [download_complete (lit "cancelled")] sample_job) /\
  downloading (snd (fst (run handleCancel cancel_emits_first [] sample_job)))
  = false.
Proof.
  apply (cancel_keeps_the_log cancel_emits_first [] sample_job
           [download_complete (lit "cancelled")] (Resolved tt)).
  reflexivity.
Defined.

Lemma update_ytdlp_witness :
  exists info,
    Resolved never_installed = Resolved info /\
    download_url info = Some (lit "https://example.org/yt-dlp.exe") /\
    lit "https://example.org/yt-dlp.exe" <> [] /\
    (truthy_opt (local info) = false \/ update_available info = true).
Proof.
  apply (update_ytdlp_only_when_reported
           ytdlp_absent [] initial [] (Resolved never_installed)
           (fst (fst (run (handleCheckUpdate initial) ytdlp_absent []
                          initial)))
           (nth 1 (fst (fst (run (handleCheckUpdate initial) ytdlp_absent []
                                 initial))) no_call)).
  - reflexivity.
  - reflexivity.
  - vm_compute. right; left; reflexivity.
  - reflexivity.
Defined.



Lemma absent_ytdlp_without_url_witness :
  exists st1 st2 st3 f,
    fst (fst (run (handleCheckUpdate initial) no_release [] initial))
    = [] ++ [Call st1 check_ytdlp_update resolved;
             Call st2 check_ffmpeg resolved;
             Call st3 check_dependencies f] /\
    status st2
    = lit "yt-dlp not installed " ++ [8212%N] ++ lit " downloading..." /\
    status st3 = lit "Everything is up to date".
Proof.
  apply (absent_ytdlp_without_url_reported_up_to_date
           no_release [] initial [] []
           (mkVersionInfo None None None false) (mkFfmpegInfo true None));
    reflexivity.
Defined.

Lemma loaded_settings_witness :
  displayed_settings (snd (fst (run loadSettings all_current [] initial)))
  = mkSettings [] (lit "best") false /\
  In (save_settings (mkSettings [] (lit "best") false))
     (issued
        (fst (fst (run (handleDownload
                          (setUrl (lit "https://youtu.be/abc")
                             (snd (fst (run loadSettings all_current []
                                            initial)))))
                       failing []
                       (setUrl (lit "https://youtu.be/abc")
                          (snd (fst (run loadSettings all_current []
                                         initial)))))))).
Proof.
  apply (loaded_settings_are_saved_back
           all_current failing [] initial []
           (mkSettings [] (lit "best") false) (lit "https://youtu.be/abc"));
    reflexivity.
Defined.

Lemma stripped_core_witness :
  In (start_download (lit "https://youtube.com/watch?v=abc123")
                     (format sample_request) (playlist sample_request)
                     (savePath sample_request))
     (issued (fst (fst (run (handleDownload sample_request) failing []
                            sample_request)))).
Proof.
  apply (start_download_sends_the_stripped_core
           failing [] sample_request
           (lit "https://youtube.com/watch?v=abc123")).
  - exists (lit " "), (lit " ").
    split; [reflexivity |]. split; [reflexivity |]. split; [reflexivity |].
    split; intros c H; vm_compute in H; injection H as <-; reflexivity.
  - vm_compute; discriminate.
Defined.

Lemma events_never_disable_witness :
  available
    (on_events [download_log (lit "[download] 50%"); download_progress 50]
               sample_request)
    DownloadButton = true.
Proof.
  apply (events_never_disable_a_control
           [download_log (lit "[download] 50%"); download_progress 50]
           sample_request DownloadButton).
  - discriminate.
  - reflexivity.
Defined.


Lemma request_frozen_witness :
  url (snd (click ffmpeg_missing CancelButton [] sample_job))
  = url sample_job /\
  displayed_settings (snd (click ffmpeg_missing CancelButton [] sample_job))
  = displayed_settings sample_job.
Proof.
  apply (request_frozen_while_downloading
           ffmpeg_missing [] sample_job CancelButton).
  reflexivity.
Defined.
